(** * GoClean: the CodeRabbit configuration validator

    A shallow embedding of [scripts/validate-coderabbit.py] and the
    properties of its schema checks.

    The script loads a YAML document with [yaml.safe_load], inspects the
    [reviews.labeling_instructions] list and accumulates human-readable
    messages in a list called [errors].  Python objects are modelled by an
    inductive type with one constructor per type that [yaml.safe_load] can
    build; the operators the script applies to them ([in], subscripting,
    [len], [isinstance]) are modelled with the exceptions they raise; the
    [errors] list is threaded through a small state-and-exception monad. *)

From Stdlib Require Import List Bool Arith NArith ZArith Lia.
From Stdlib Require Import Ascii String DecimalString DecimalNat.
Import ListNotations.

Set Implicit Arguments.
Set Warnings "-register-all".

(** ** Python strings *)

(** A Python [str] is a sequence of Unicode code points; [len] counts them. *)
Definition pystr : Type := list N.

(** An ASCII literal of the source as a [pystr]. *)
Definition lit (s : string) : pystr :=
  map N_of_ascii (list_ascii_of_string s).

(** The double-quote character (code point 34) of the f-strings. *)
Definition dquote : pystr := [34%N].

(** [str.__eq__] on two strings. *)
Fixpoint str_eqb (a b : pystr) : bool :=
  match a, b with
  | [], [] => true
  | x :: a', y :: b' => N.eqb x y && str_eqb a' b'
  | _, _ => false
  end.

(** [needle] is an initial segment of [hay]. *)
Fixpoint is_prefix (needle hay : pystr) : bool :=
  match needle, hay with
  | [], _ => true
  | x :: n', y :: h' => N.eqb x y && is_prefix n' h'
  | _ :: _, [] => false
  end.

(** [needle in hay] for two strings: the substring test. *)
Fixpoint is_substring (needle hay : pystr) : bool :=
  is_prefix needle hay ||
  match hay with
  | [] => false
  | _ :: h' => is_substring needle h'
  end.

(** [str(i)] for a non-negative integer, as interpolated by [{i}]. *)
Definition str_of_nat (i : nat) : pystr :=
  lit (NilEmpty.string_of_uint (Nat.to_uint i)).

(** ** Python objects built by [yaml.safe_load] *)

Inductive value : Type :=
| VNone
| VBool (b : bool)
| VInt (z : Z)
| VFloat (bits : Z)                 (* the IEEE-754 binary64 pattern *)
| VStr (s : pystr)
| VBytes (b : list N)               (* !!binary *)
| VDate (year month day : Z)        (* datetime.date *)
| VDatetime (date : Z * Z * Z) (micros : Z)
| VList (l : list value)
| VTuple (l : list value)           (* the pairs of !!omap and !!pairs *)
| VSet (l : list value)             (* !!set *)
| VDict (d : list (value * value)). (* keys in insertion order *)

(** [type(v).__name__]. *)
Definition type_name (v : value) : pystr :=
  match v with
  | VNone => lit "NoneType"
  | VBool _ => lit "bool"
  | VInt _ => lit "int"
  | VFloat _ => lit "float"
  | VStr _ => lit "str"
  | VBytes _ => lit "bytes"
  | VDate _ _ _ => lit "date"
  | VDatetime _ _ => lit "datetime"
  | VList _ => lit "list"
  | VTuple _ => lit "tuple"
  | VSet _ => lit "set"
  | VDict _ => lit "dict"
  end.

Definition isinstance_str (v : value) : bool :=
  match v with VStr _ => true | _ => false end.

Definition isinstance_dict (v : value) : bool :=
  match v with VDict _ => true | _ => false end.

Definition isinstance_list (v : value) : bool :=
  match v with VList _ => true | _ => false end.

(** ** Exceptions and outcomes *)

Inductive exn : Type :=
| TypeError
| KeyError
| UncaughtLoadError.  (* raised while loading, caught by no except clause *)

Inductive outcome (A : Type) : Type :=
| Ret (a : A)
| Raise (e : exn).

Arguments Ret {A} a.
Arguments Raise {A} e.

(** ** Operators on objects, for a string on the left or as the key *)

(** [k == v] where [k] is a [str]: only an equal [str] compares equal. *)
Definition eq_str (k : pystr) (v : value) : bool :=
  match v with
  | VStr s => str_eqb k s
  | _ => false
  end.

(** The entry of a dict whose key equals the string [k]. *)
Fixpoint dict_lookup (d : list (value * value)) (k : pystr) : option value :=
  match d with
  | [] => None
  | (key, v) :: d' => if eq_str k key then Some v else dict_lookup d' k
  end.

Definition is_some {A : Type} (o : option A) : bool :=
  match o with Some _ => true | None => false end.

(** [k in c] where [k] is a [str]. *)
Definition py_in (k : pystr) (c : value) : outcome bool :=
  match c with
  | VDict d => Ret (is_some (dict_lookup d k))
  | VStr s => Ret (is_substring k s)
  | VList l | VTuple l | VSet l => Ret (existsb (eq_str k) l)
  | VNone | VBool _ | VInt _ | VFloat _ | VBytes _
  | VDate _ _ _ | VDatetime _ _ => Raise TypeError
  end.

(** [c[k]] where [k] is a [str]. *)
Definition py_getitem (c : value) (k : pystr) : outcome value :=
  match c with
  | VDict d =>
      match dict_lookup d k with
      | Some v => Ret v
      | None => Raise KeyError
      end
  | _ => Raise TypeError
  end.

(** [len(c)]. *)
Definition py_len (c : value) : outcome nat :=
  match c with
  | VStr s => Ret (List.length s)
  | VBytes b => Ret (List.length b)
  | VList l | VTuple l | VSet l => Ret (List.length l)
  | VDict d => Ret (List.length d)
  | _ => Raise TypeError
  end.

(** ** The monad of the validator: the [errors] list and exceptions *)

Definition M (A : Type) : Type := list pystr -> outcome (A * list pystr).

Definition ret {A : Type} (a : A) : M A := fun errors => Ret (a, errors).

Definition bind {A B : Type} (m : M A) (f : A -> M B) : M B :=
  fun errors =>
    match m errors with
    | Ret (a, errors') => f a errors'
    | Raise e => Raise e
    end.

(** An operator that may raise, evaluated without touching [errors]. *)
Definition eval {A : Type} (o : outcome A) : M A :=
  fun errors =>
    match o with
    | Ret a => Ret (a, errors)
    | Raise e => Raise e
    end.

(** [errors.append(msg)]. *)
Definition errors_append (msg : pystr) : M unit :=
  fun errors => Ret (tt, errors ++ [msg]).

Notation "x <- m ;; k" := (bind m (fun x => k))
  (at level 61, m at next level, right associativity).
Notation "m ;;; k" := (bind m (fun _ => k))
  (at level 61, right associativity).

(** [for i, x in enumerate(l)] with the counter starting at [i]. *)
Fixpoint for_enumerate (i : nat) (l : list value)
    (body : nat -> value -> M unit) : M unit :=
  match l with
  | [] => ret tt
  | x :: l' => body i x ;;; for_enumerate (S i) l' body
  end.

(** ** The messages *)

(** ["reviews.labeling_instructions[i]"] between double quotes. *)
Definition path (i : nat) : pystr :=
  dquote ++ lit "reviews.labeling_instructions[" ++ str_of_nat i
         ++ lit "]" ++ dquote.

Definition msg_missing_reviews : pystr := lit "Missing 'reviews' section".

Definition msg_must_be_list : pystr :=
  lit "'reviews.labeling_instructions' must be a list".

Definition msg_received_string (i : nat) : pystr :=
  lit "Expected object, received string at " ++ path i.

Definition msg_missing_label (i : nat) : pystr :=
  lit "Missing 'label' field at " ++ path i.

Definition msg_label_not_str (i : nat) : pystr :=
  lit "'label' must be a string at " ++ path i.

Definition msg_missing_instructions (i : nat) : pystr :=
  lit "Missing 'instructions' field at " ++ path i.

Definition msg_instructions_not_str (i : nat) : pystr :=
  lit "'instructions' must be a string at " ++ path i.

Definition msg_too_long (i : nat) : pystr :=
  lit "'instructions' exceeds 3000 character limit at " ++ path i.

Definition msg_invalid_type (i : nat) (ty : pystr) : pystr :=
  lit "Invalid type at " ++ path i ++ lit ": expected object, got " ++ ty.

(** ** [validate_coderabbit_yaml], lines 23-75: the checks on the document *)

(** The body of the loop over [enumerate(instructions)], lines 38-70. *)
Definition check_instruction (i : nat) (instruction : value) : M unit :=
  if isinstance_str instruction then
    errors_append (msg_received_string i)
  else if isinstance_dict instruction then
    (has_label <- eval (py_in (lit "label") instruction) ;;
     if negb has_label then
       errors_append (msg_missing_label i)
     else
       label <- eval (py_getitem instruction (lit "label")) ;;
       if negb (isinstance_str label) then
         errors_append (msg_label_not_str i)
       else ret tt) ;;;
    (has_instructions <- eval (py_in (lit "instructions") instruction) ;;
     if negb has_instructions then
       errors_append (msg_missing_instructions i)
     else
       text <- eval (py_getitem instruction (lit "instructions")) ;;
       if negb (isinstance_str text) then
         errors_append (msg_instructions_not_str i)
       else
         text' <- eval (py_getitem instruction (lit "instructions")) ;;
         n <- eval (py_len text') ;;
         if 3000 <? n then
           errors_append (msg_too_long i)
         else ret tt)
  else
    errors_append (msg_invalid_type i (type_name instruction)).

(** Lines 23-75, from the parsed [config] on. *)
Definition check_config (config : value) : M unit :=
  has_reviews <- eval (py_in (lit "reviews") config) ;;
  if negb has_reviews then
    errors_append msg_missing_reviews
  else
    reviews <- eval (py_getitem config (lit "reviews")) ;;
    has_li <- eval (py_in (lit "labeling_instructions") reviews) ;;
    if has_li then
      instructions <- eval (py_getitem reviews (lit "labeling_instructions")) ;;
      match instructions with
      | VList l => for_enumerate 0 l check_instruction
      | _ => errors_append msg_must_be_list
      end
    else ret tt.

(** The validator on a parsed document: [errors = []], the checks, and
    [return errors]. *)
Definition validate_config (config : value) : outcome (list pystr) :=
  match check_config config [] with
  | Ret (_, errors) => Ret errors
  | Raise e => Raise e
  end.

(** ** Loading the file, lines 15-21 *)

(** What [open(filepath, 'r')] followed by [yaml.safe_load(f)] does: it
    yields the parsed document or raises.  [YAMLError e] carries [str(e)];
    [OtherLoadError] stands for the exceptions the try statement does not
    catch (PermissionError, IsADirectoryError, UnicodeDecodeError). *)
Inductive load_result : Type :=
| Loaded (config : value)
| YAMLError (e : pystr)
| FileNotFoundError
| OtherLoadError.

(** What a run of the script leaves behind: the arguments of the calls of
    [print], in order, and either the code given to [sys.exit] or the
    exception that escaped. *)
Record process : Type := {
  stdout : list pystr;
  status : outcome Z
}.

Definition print_validating (filepath : pystr) : pystr :=
  lit "Validating CodeRabbit configuration: " ++ filepath.

(** A newline, the cross mark U+274C and the text of line 92. *)
Definition print_failed : pystr :=
  [10%N; 10060%N] ++ lit " Validation failed with the following errors:".

Definition print_error (error : pystr) : pystr := lit "  - " ++ error.

(** The check mark U+2705 and the text of line 97. *)
Definition print_valid : pystr :=
  [9989%N] ++ lit " CodeRabbit YAML configuration is valid".

Section Script.

(** The file system and the YAML parser. *)
Variable safe_load_file : pystr -> load_result.

(** [os.path.abspath], which resolves a relative path against the
    current directory. *)
Variable abspath : pystr -> pystr.

Definition validate_coderabbit_yaml (filepath : pystr)
  : outcome (list pystr) :=
  match safe_load_file filepath with
  | YAMLError e => Ret [lit "YAML syntax error: " ++ e]
  | FileNotFoundError => Ret [lit "File not found: " ++ filepath]
  | OtherLoadError => Raise UncaughtLoadError
  | Loaded config => validate_config config
  end.

(** Lines 79-85: the path the run validates. *)
Definition filepath_of_argv (argv : list pystr) : pystr :=
  let filepath :=
    if List.length argv <? 2 then lit ".coderabbit.yaml"
    else nth 1 argv [] in
  abspath filepath.

(** [main], with [sys.argv] as its argument. *)
Definition main (argv : list pystr) : process :=
  let filepath := filepath_of_argv argv in
  let out := [print_validating filepath] in
  match validate_coderabbit_yaml filepath with
  | Raise e => {| stdout := out; status := Raise e |}
  | Ret errors =>
      match errors with
      | _ :: _ =>
          {| stdout := out ++ [print_failed] ++ map print_error errors;
             status := Ret 1%Z |}
      | [] =>
          {| stdout := out ++ [print_valid]; status := Ret 0%Z |}
      end
  end.

End Script.

(** ** What one element and one list contribute *)

(** The messages of lines 45-52, from the result of looking [label] up. *)
Definition label_errors (i : nat) (label : option value) : list pystr :=
  match label with
  | None => [msg_missing_label i]
  | Some (VStr _) => []
  | Some _ => [msg_label_not_str i]
  end.

(** The messages of lines 54-65, from the result of looking [instructions]
    up. *)
Definition instructions_errors (i : nat) (text : option value)
  : list pystr :=
  match text with
  | None => [msg_missing_instructions i]
  | Some (VStr s) =>
      if 3000 <? List.length s then [msg_too_long i] else []
  | Some _ => [msg_instructions_not_str i]
  end.

(** The messages one pass of the loop body appends. *)
Definition element_errors (i : nat) (x : value) : list pystr :=
  match x with
  | VStr _ => [msg_received_string i]
  | VDict d =>
      label_errors i (dict_lookup d (lit "label")) ++
      instructions_errors i (dict_lookup d (lit "instructions"))
  | _ => [msg_invalid_type i (type_name x)]
  end.

(** The messages the loop appends for the elements [l], the first of which
    has index [i]. *)
Fixpoint errors_from (i : nat) (l : list value) : list pystr :=
  match l with
  | [] => []
  | x :: l' => element_errors i x ++ errors_from (S i) l'
  end.

(** The per-element messages, by kind. *)
Inductive kind : Type :=
| ReceivedString
| MissingLabel
| LabelNotStr
| MissingInstructions
| InstructionsNotStr
| TooLong
| InvalidType (ty : pystr).

Definition element_msg (k : kind) (i : nat) : pystr :=
  match k with
  | ReceivedString => msg_received_string i
  | MissingLabel => msg_missing_label i
  | LabelNotStr => msg_label_not_str i
  | MissingInstructions => msg_missing_instructions i
  | InstructionsNotStr => msg_instructions_not_str i
  | TooLong => msg_too_long i
  | InvalidType ty => msg_invalid_type i ty
  end.

(** A message mentions index [i] when it is one of the per-element messages
    with the path of [i]. *)
Definition mentions (i : nat) (msg : pystr) : Prop :=
  exists k, msg = element_msg k i.

(** The text between the first opening bracket and the next closing
    bracket of a message: where the per-element messages carry the index. *)
Fixpoint drop_through (c : N) (m : pystr) : pystr :=
  match m with
  | [] => []
  | x :: m' => if N.eqb x c then m' else drop_through c m'
  end.

Fixpoint take_until (c : N) (m : pystr) : pystr :=
  match m with
  | [] => []
  | x :: m' => if N.eqb x c then [] else x :: take_until c m'
  end.

Definition index_text (msg : pystr) : pystr :=
  take_until 93 (drop_through 91 msg).

(** The list under [reviews.labeling_instructions], when the root and
    [reviews] are mappings and the value is a list. *)
Definition labeling_list (config : value) : option (list value) :=
  match config with
  | VDict root =>
      match dict_lookup root (lit "reviews") with
      | Some (VDict reviews) =>
          match dict_lookup reviews (lit "labeling_instructions") with
          | Some (VList l) => Some l
          | _ => None
          end
      | _ => None
      end
  | _ => None
  end.

(** The objects on which [k in c], for a string [k], raises TypeError:
    those that are not iterable, and [bytes]. *)
Definition rejects_str_membership (c : value) : bool :=
  match c with
  | VNone | VBool _ | VInt _ | VFloat _ | VBytes _
  | VDate _ _ _ | VDatetime _ _ => true
  | _ => false
  end.

(** ** Sample documents and environments *)

Definition str (s : string) : value := VStr (lit s).

(** [{language: en-US}] *)
Definition doc_without_reviews : list (value * value) :=
  [(str "language", str "en-US")].

(** [{reviews: oops}] *)
Definition doc_reviews_oops : value :=
  VDict [(str "reviews", str "oops")].

(** [{reviews: {profile: chill, labeling_instructions: v}}] *)
Definition doc_with_labeling (v : value) : value :=
  VDict [(str "reviews",
          VDict [(str "profile", str "chill");
                 (str "labeling_instructions", v)])].

(** A string of [n] letters x. *)
Definition long_text (n : nat) : pystr := repeat 120%N n.

Definition good_entry : value :=
  VDict [(str "label", str "bug"); (str "instructions", str "x")].

(** [{label: bug, instructions: xxx...}] with [n] letters. *)
Definition entry_of_length (n : nat) : list (value * value) :=
  [(str "label", str "bug"); (str "instructions", VStr (long_text n))].

(** [sys.argv] when the script is run without an argument. *)
Definition argv_without_path : list pystr := [lit "validate-coderabbit.py"].

(** No file exists. *)
Definition no_files : pystr -> load_result := fun _ => FileNotFoundError.

(** Every file holds text that is not YAML. *)
Definition bad_yaml : pystr -> load_result :=
  fun _ => YAMLError (lit "mapping values are not allowed here").

(** Every file holds the document [doc]. *)
Definition files_with (doc : value) : pystr -> load_result :=
  fun _ => Loaded doc.

(** [os.path.abspath] for a plain file name, run in [/repo]. *)
Definition abspath_repo (p : pystr) : pystr := lit "/repo/" ++ p.

(** ** Entries that pass every check of the loop body *)

(** An element to which lines 39-70 append nothing: a mapping whose
    [label] is a string and whose [instructions] is a string of at most
    3000 characters. *)
Definition well_formed_entry (x : value) : bool :=
  match x with
  | VDict d =>
      match dict_lookup d (lit "label"),
            dict_lookup d (lit "instructions") with
      | Some (VStr _), Some (VStr s) => List.length s <=? 3000
      | _, _ => false
      end
  | _ => false
  end.

(** The first character of the messages of the schema checks: one of
    M, E, I and the apostrophe. *)
Definition schema_initial (c : N) : bool :=
  N.eqb c 77 || N.eqb c 69 || N.eqb c 73 || N.eqb c 39.

(** More sample documents. *)

(** [{label: [n letters], instructions: short, color: red}] *)
Definition entry_with_label (n : nat) : list (value * value) :=
  [(str "color", str "red"); (str "label", VStr (long_text n));
   (str "instructions", str "short")].

(** Three entries, none of them well formed. *)
Definition mixed_entries : list value := [str "bug"; VDict []; VInt 5].

(** [{version: 2, reviews: {labeling_instructions: v, tools: {}}}] *)
Definition doc_with_other_keys (v : value) : value :=
  VDict [(str "version", VInt 2);
         (str "reviews",
          VDict [(str "labeling_instructions", v);
                 (str "tools", VDict [])])].

(** Every file is empty: [yaml.safe_load] returns None. *)
Definition empty_files : pystr -> load_result := fun _ => Loaded VNone.

(** ** Running the loop body and the loop *)

Arguments lit : simpl never.
Arguments msg_received_string : simpl never.
Arguments msg_missing_label : simpl never.
Arguments msg_label_not_str : simpl never.
Arguments msg_missing_instructions : simpl never.
Arguments msg_instructions_not_str : simpl never.
Arguments msg_too_long : simpl never.
Arguments msg_invalid_type : simpl never.
Arguments type_name : simpl never.

Ltac split_limit :=
  match goal with
  | |- context [3000 <? ?n] => destruct (3000 <? n)
  end.

Ltac split_membership :=
  match goal with
  | |- context [is_substring ?k ?s] => destruct (is_substring k s)
  | |- context [existsb ?f ?l] => destruct (existsb f l)
  end.

Ltac tidy_appends :=
  cbn [app]; rewrite ?List.app_nil_r, <- ?List.app_assoc; cbn [app];
  try reflexivity.

Lemma check_instruction_appends (i : nat) (x : value) (errors : list pystr) :
  check_instruction i x errors = Ret (tt, errors ++ element_errors i x).
Proof.
  destruct x; try reflexivity.
  unfold check_instruction, element_errors, bind, eval, errors_append, ret.
  cbn [isinstance_str isinstance_dict py_in py_getitem].
  destruct (dict_lookup d (lit "label")) as [lbl|];
    destruct (dict_lookup d (lit "instructions")) as [txt|];
    cbn [is_some negb label_errors instructions_errors];
    try destruct lbl; try destruct txt;
    cbn [isinstance_str negb py_len];
    try split_limit; tidy_appends.
Qed.

Lemma for_enumerate_appends (l : list value) :
  forall (i : nat) (errors : list pystr),
    for_enumerate i l check_instruction errors
    = Ret (tt, errors ++ errors_from i l).
Proof.
  induction l as [|x l IH]; intros i errors; cbn [for_enumerate errors_from].
  - unfold ret. now rewrite List.app_nil_r.
  - unfold bind. rewrite check_instruction_appends, IH.
    now rewrite <- List.app_assoc.
Qed.

Lemma errors_from_app (pre post : list value) :
  forall i : nat,
    errors_from i (pre ++ post)
    = errors_from i pre ++ errors_from (i + List.length pre) post.
Proof.
  induction pre as [|x pre IH]; intros i; cbn [app errors_from List.length].
  - now rewrite Nat.add_0_r.
  - rewrite IH, <- List.app_assoc.
    now replace (S i + List.length pre) with (i + S (List.length pre)) by lia.
Qed.

(** The validator on a root mapping without the key [reviews]. *)
Lemma validate_no_reviews (root : list (value * value)) :
  dict_lookup root (lit "reviews") = None ->
  validate_config (VDict root) = Ret [msg_missing_reviews].
Proof.
  intros H. unfold validate_config, check_config, bind, eval, py_in.
  now rewrite H.
Qed.

(** The validator when [reviews] is a mapping: the three cases of
    [labeling_instructions]. *)
Lemma validate_reviews_dict (root reviews : list (value * value)) :
  dict_lookup root (lit "reviews") = Some (VDict reviews) ->
  validate_config (VDict root)
  = Ret match dict_lookup reviews (lit "labeling_instructions") with
        | None => []
        | Some (VList l) => errors_from 0 l
        | Some _ => [msg_must_be_list]
        end.
Proof.
  intros H.
  unfold validate_config, check_config, bind, eval, py_in, py_getitem.
  rewrite H. cbn [is_some negb].
  destruct (dict_lookup reviews (lit "labeling_instructions")) as [v|];
    [|reflexivity].
  cbn [is_some]. destruct v; try reflexivity.
  now rewrite for_enumerate_appends.
Qed.

Lemma validate_labeling_list (config : value) (l : list value) :
  labeling_list config = Some l ->
  validate_config config = Ret (errors_from 0 l).
Proof.
  destruct config as [| | | | | | | | | | |root]; try discriminate.
  cbn [labeling_list].
  destruct (dict_lookup root (lit "reviews")) as [r|] eqn:Hr;
    [|discriminate].
  destruct r as [| | | | | | | | | | |reviews]; try discriminate.
  intros H. rewrite (validate_reviews_dict _ Hr).
  destruct (dict_lookup reviews (lit "labeling_instructions")) as [v|];
    [|discriminate].
  destruct v; try discriminate. now injection H as ->.
Qed.

(** The element at index [length pre] contributes [element_errors], after
    the messages of the elements before it and before those of the
    elements after it. *)
Lemma validate_element (config : value) (pre post : list value) (x : value) :
  labeling_list config = Some (pre ++ x :: post) ->
  validate_config config
  = Ret (errors_from 0 pre
         ++ element_errors (List.length pre) x
         ++ errors_from (S (List.length pre)) post).
Proof.
  intros H. rewrite (validate_labeling_list _ H), errors_from_app.
  reflexivity.
Qed.

(** ** The presence check *)

(** C1: when the root mapping has no key [reviews], the validator returns
    exactly the one error [Missing 'reviews' section]; the whole run of the
    checks is that single append, whatever else the document holds. *)
Theorem C1_missing_reviews_only (root : list (value * value)) :
  py_in (lit "reviews") (VDict root) = Ret false ->
  validate_config (VDict root) = Ret [lit "Missing 'reviews' section"]
  /\ forall errors,
       check_config (VDict root) errors
       = errors_append (lit "Missing 'reviews' section") errors.
Proof.
  cbn [py_in]. intros H.
  assert (Hn : dict_lookup root (lit "reviews") = None).
  { destruct (dict_lookup root (lit "reviews")); [discriminate|reflexivity]. }
  split.
  - now apply validate_no_reviews.
  - intros errors. unfold check_config, bind, eval, py_in.
    now rewrite Hn.
Qed.

Lemma C1_witness :
  validate_config (VDict doc_without_reviews)
  = Ret [lit "Missing 'reviews' section"]
  /\ forall errors,
       check_config (VDict doc_without_reviews) errors
       = errors_append (lit "Missing 'reviews' section") errors.
Proof.
  apply (@C1_missing_reviews_only doc_without_reviews). reflexivity.
Defined.

(** ** The type check of [labeling_instructions] *)

(** C3: when the root and [reviews] are mappings and
    [reviews.labeling_instructions] is present with a value that is not a
    list, the validator returns exactly one error, the must-be-a-list
    message, and no per-element message. *)
Theorem C3_not_a_list (root reviews : list (value * value)) (v : value) :
  dict_lookup root (lit "reviews") = Some (VDict reviews) ->
  dict_lookup reviews (lit "labeling_instructions") = Some v ->
  isinstance_list v = false ->
  validate_config (VDict root)
  = Ret [lit "'reviews.labeling_instructions' must be a list"].
Proof.
  intros Hr Hv Hl. rewrite (validate_reviews_dict _ Hr), Hv.
  destruct v; try reflexivity. discriminate.
Qed.

Lemma C3_witness :
  validate_config (doc_with_labeling VNone)
  = Ret [lit "'reviews.labeling_instructions' must be a list"].
Proof.
  eapply C3_not_a_list; reflexivity.
Defined.

(** ** The elements of the list *)

(** C4: a string at index [length pre] of the list contributes exactly one
    message, [Expected object, received string] with the path of that
    index, between the messages of the elements before and after it. *)
Theorem C4_string_element (config : value) (pre post : list value)
    (s : pystr) :
  labeling_list config = Some (pre ++ VStr s :: post) ->
  validate_config config
  = Ret (errors_from 0 pre
         ++ [lit "Expected object, received string at "
             ++ path (List.length pre)]
         ++ errors_from (S (List.length pre)) post).
Proof.
  intros H. now rewrite (validate_element _ _ _ _ H).
Qed.

Lemma C4_witness :
  validate_config
    (doc_with_labeling (VList [good_entry; str "bug"; good_entry]))
  = Ret (errors_from 0 [good_entry]
         ++ [lit "Expected object, received string at " ++ path 1]
         ++ errors_from 2 [good_entry]).
Proof.
  apply (@C4_string_element (doc_with_labeling
           (VList [good_entry; str "bug"; good_entry]))
           [good_entry] [good_entry] (lit "bug")).
  reflexivity.
Defined.

(** C5: a mapping at index [length pre] contributes the messages of its
    [label] field followed by those of its [instructions] field, each
    determined by its own key alone; with both keys absent these are
    exactly the two missing-field messages, [label] first. *)
Theorem C5_both_fields_missing (config : value) (pre post : list value)
    (d : list (value * value)) :
  labeling_list config = Some (pre ++ VDict d :: post) ->
  validate_config config
  = Ret (errors_from 0 pre
         ++ (label_errors (List.length pre) (dict_lookup d (lit "label"))
             ++ instructions_errors (List.length pre)
                  (dict_lookup d (lit "instructions")))
         ++ errors_from (S (List.length pre)) post)
  /\ (py_in (lit "label") (VDict d) = Ret false ->
      py_in (lit "instructions") (VDict d) = Ret false ->
      validate_config config
      = Ret (errors_from 0 pre
             ++ [lit "Missing 'label' field at " ++ path (List.length pre);
                 lit "Missing 'instructions' field at "
                 ++ path (List.length pre)]
             ++ errors_from (S (List.length pre)) post)).
Proof.
  intros H. rewrite (validate_element _ _ _ _ H). split; [reflexivity|].
  cbn [py_in element_errors]. intros Hl Hi.
  destruct (dict_lookup d (lit "label")); [discriminate|].
  destruct (dict_lookup d (lit "instructions")); [discriminate|].
  reflexivity.
Qed.

Lemma C5_witness :
  validate_config (doc_with_labeling (VList [good_entry; VDict []]))
  = Ret (errors_from 0 [good_entry]
         ++ [lit "Missing 'label' field at " ++ path 1;
             lit "Missing 'instructions' field at " ++ path 1]
         ++ errors_from 2 []).
Proof.
  apply (@C5_both_fields_missing
           (doc_with_labeling (VList [good_entry; VDict []]))
           [good_entry] [] []); reflexivity.
Defined.

(** C6: for a mapping element, the [instructions] field contributes at
    most one message, chosen in the order missing, not a string, too long:
    a string of 3001 characters yields exactly the character-limit
    message, a string of 3000 characters yields none. *)
Theorem C6_instructions_limit (config : value) (pre post : list value)
    (d : list (value * value)) :
  labeling_list config = Some (pre ++ VDict d :: post) ->
  let i := List.length pre in
  let result (field : list pystr) :=
    Ret (errors_from 0 pre
         ++ (label_errors i (dict_lookup d (lit "label")) ++ field)
         ++ errors_from (S i) post) in
  (forall s, dict_lookup d (lit "instructions") = Some (VStr s) ->
             List.length s = 3001 ->
             validate_config config
             = result [lit "'instructions' exceeds 3000 character limit at "
                       ++ path i])
  /\ (forall s, dict_lookup d (lit "instructions") = Some (VStr s) ->
                List.length s = 3000 ->
                validate_config config = result [])
  /\ (py_in (lit "instructions") (VDict d) = Ret false ->
      validate_config config
      = result [lit "Missing 'instructions' field at " ++ path i])
  /\ (forall v, dict_lookup d (lit "instructions") = Some v ->
                isinstance_str v = false ->
                validate_config config
                = result [lit "'instructions' must be a string at "
                          ++ path i])
  /\ (forall s, dict_lookup d (lit "instructions") = Some (VStr s) ->
                validate_config config
                = result (if 3000 <? List.length s
                          then [lit "'instructions' exceeds 3000 character limit at "
                                ++ path i]
                          else [])).
Proof.
  intros H i result. subst result i.
  rewrite (validate_element _ _ _ _ H). cbn [element_errors py_in].
  repeat split.
  - intros s -> Hs. cbn [instructions_errors]. now rewrite Hs.
  - intros s -> Hs. cbn [instructions_errors]. now rewrite Hs.
  - destruct (dict_lookup d (lit "instructions")); [discriminate|reflexivity].
  - intros v -> Hv. destruct v; try reflexivity. discriminate.
  - now intros s ->.
Qed.

Lemma C6_witness :
  validate_config
    (doc_with_labeling (VList [VDict (entry_of_length 3001)]))
  = Ret [lit "'instructions' exceeds 3000 character limit at " ++ path 0]
  /\ validate_config
       (doc_with_labeling (VList [VDict (entry_of_length 3000)]))
     = Ret [].
Proof.
  split.
  - refine (proj1 (@C6_instructions_limit _ [] [] (entry_of_length 3001) _)
              (long_text 3001) _ _);
      vm_compute; reflexivity.
  - refine (proj1 (proj2 (@C6_instructions_limit _ [] []
                            (entry_of_length 3000) _))
              (long_text 3000) _ _);
      vm_compute; reflexivity.
Defined.

(** ** Violations are returned, not raised *)

(** C7: when the root is a mapping and [reviews] is a mapping, the
    validator raises nothing and returns the violations as a list,
    whatever [labeling_instructions] and its elements are: the empty list
    when the key is absent, the must-be-a-list message when its value is
    not a list, and otherwise the messages of every element, block after
    block in index order. *)
Theorem C7_returns_errors (root reviews : list (value * value)) :
  dict_lookup root (lit "reviews") = Some (VDict reviews) ->
  exists errors : list pystr,
    validate_config (VDict root) = Ret errors
    /\ errors
       = match dict_lookup reviews (lit "labeling_instructions") with
         | None => []
         | Some (VList l) =>
             List.concat
               (map (fun ix => element_errors (fst ix) (snd ix))
                    (combine (seq 0 (List.length l)) l))
         | Some _ => [lit "'reviews.labeling_instructions' must be a list"]
         end.
Proof.
  intros H. rewrite (validate_reviews_dict _ H). eexists.
  split; [reflexivity|].
  destruct (dict_lookup reviews (lit "labeling_instructions")) as [v|];
    [|reflexivity].
  destruct v; try reflexivity.
  revert l. generalize 0.
  intros start l. revert start.
  induction l as [|x l IH]; intros start;
    cbn [errors_from List.length seq combine map List.concat fst snd].
  - reflexivity.
  - now rewrite IH.
Qed.

Lemma C7_witness :
  exists errors : list pystr,
    validate_config
      (doc_with_labeling
         (VList [VNone; VInt 5; VList [str "a"]; VDict [(str "label", VNone)]]))
    = Ret errors
    /\ errors
       = [msg_invalid_type 0 (lit "NoneType");
          msg_invalid_type 1 (lit "int");
          msg_invalid_type 2 (lit "list");
          msg_label_not_str 3;
          msg_missing_instructions 3].
Proof.
  apply (@C7_returns_errors
           [(str "reviews",
             VDict [(str "profile", str "chill");
                    (str "labeling_instructions",
                     VList [VNone; VInt 5; VList [str "a"];
                            VDict [(str "label", VNone)]])])]
           [(str "profile", str "chill");
            (str "labeling_instructions",
             VList [VNone; VInt 5; VList [str "a"];
                    VDict [(str "label", VNone)]])]).
  reflexivity.
Defined.

(** ** The index carried by a per-element message *)

Lemma lit_inj (s t : string) : lit s = lit t -> s = t.
Proof.
  unfold lit. intros H.
  rewrite <- (string_of_list_ascii_of_string s),
          <- (string_of_list_ascii_of_string t).
  f_equal.
  revert H. generalize (list_ascii_of_string s) (list_ascii_of_string t).
  intros a. induction a as [|x a IH]; intros [|y b]; cbn [map];
    try discriminate; [reflexivity|].
  intros H. injection H as Hxy Hab. f_equal; [|now apply IH].
  now rewrite <- (ascii_N_embedding x), <- (ascii_N_embedding y), Hxy.
Qed.

Lemma str_of_nat_inj (i j : nat) : str_of_nat i = str_of_nat j -> i = j.
Proof.
  unfold str_of_nat. intros H. apply lit_inj in H.
  apply (f_equal NilEmpty.uint_of_string) in H.
  rewrite !NilEmpty.usu in H. injection H as H.
  apply (f_equal Nat.of_uint) in H.
  now rewrite !DecimalNat.Unsigned.of_to in H.
Qed.

(** The decimal digits hold no closing bracket. *)
Lemma digits_no_bracket (d : Decimal.uint) :
  Forall (fun c => c <> 93%N) (lit (NilEmpty.string_of_uint d)).
Proof.
  unfold lit.
  induction d; cbn [NilEmpty.string_of_uint list_ascii_of_string map];
    constructor; try assumption; discriminate.
Qed.

Lemma take_until_stops (c : N) (digits rest : pystr) :
  Forall (fun x => x <> c) digits ->
  take_until c (digits ++ c :: rest) = digits.
Proof.
  induction 1 as [|x digits Hx _ IH]; cbn [app take_until].
  - now rewrite N.eqb_refl.
  - apply N.eqb_neq in Hx. rewrite Hx. now f_equal.
Qed.

Lemma index_text_element_msg (k : kind) (i : nat) :
  index_text (element_msg k i) = str_of_nat i.
Proof.
  unfold str_of_nat.
  pose proof (digits_no_bracket (Nat.to_uint i)) as Hd.
  unfold element_msg, msg_received_string, msg_missing_label,
    msg_label_not_str, msg_missing_instructions, msg_instructions_not_str,
    msg_too_long, msg_invalid_type, path, str_of_nat, index_text.
  revert Hd. generalize (lit (NilEmpty.string_of_uint (Nat.to_uint i))).
  intros digits Hd.
  destruct k; rewrite <- ?List.app_assoc; unfold lit, dquote; simpl;
    now apply take_until_stops.
Qed.

(** A message carries one index only. *)
Lemma mentions_inj (i j : nat) (msg : pystr) :
  mentions i msg -> mentions j msg -> i = j.
Proof.
  intros [k ->] [k' H]. apply str_of_nat_inj.
  now rewrite <- (index_text_element_msg k i), H, index_text_element_msg.
Qed.

(** ** Per-element messages: how many, and in which order *)

Lemma element_errors_mention (i : nat) (x : value) (msg : pystr) :
  In msg (element_errors i x) -> mentions i msg.
Proof.
  assert (Hone : forall k, In msg [element_msg k i] -> mentions i msg).
  { intros k [<-|[]]. now exists k. }
  destruct x; cbn [element_errors];
    try (apply (Hone (InvalidType _))); try (apply (Hone ReceivedString)).
  intros H. apply in_app_or in H. destruct H as [H|H].
  - destruct (dict_lookup d (lit "label")) as [[]|]; cbn [label_errors] in H;
      try contradiction;
      try (now apply (Hone LabelNotStr)); now apply (Hone MissingLabel).
  - destruct (dict_lookup d (lit "instructions")) as [[]|];
      cbn [instructions_errors] in H;
      try (now apply (Hone InstructionsNotStr));
      try (now apply (Hone MissingInstructions)).
    destruct (3000 <? List.length s); [now apply (Hone TooLong)|contradiction].
Qed.

Lemma errors_from_mention (l : list value) :
  forall (i : nat) (msg : pystr),
    In msg (errors_from i l) ->
    exists q, i <= q < i + List.length l /\ mentions q msg.
Proof.
  induction l as [|x l IH]; intros i msg; cbn [errors_from List.length].
  - contradiction.
  - intros H. apply in_app_or in H. destruct H as [H|H].
    + exists i. split; [lia|]. now apply element_errors_mention with x.
    + destruct (IH _ _ H) as (q & Hq & Hm). exists q. split; [lia|exact Hm].
Qed.

Lemma element_errors_length (i : nat) (x : value) :
  List.length (element_errors i x) <= 2
  /\ (isinstance_dict x = false -> List.length (element_errors i x) = 1).
Proof.
  destruct x; cbn [element_errors isinstance_dict List.length];
    try (split; [lia|reflexivity]).
  split; [|discriminate]. rewrite List.length_app.
  destruct (dict_lookup d (lit "label")) as [[]|];
    destruct (dict_lookup d (lit "instructions")) as [[]|];
    cbn [label_errors instructions_errors List.length];
    try split_limit; cbn [List.length]; lia.
Qed.

(** In the messages of a list, a message with a smaller index stands
    before a message with a larger one. *)
Lemma errors_from_ordered (l : list value) :
  forall (start a b i j : nat) (ma mb : pystr),
    nth_error (errors_from start l) a = Some ma ->
    nth_error (errors_from start l) b = Some mb ->
    mentions i ma -> mentions j mb -> i < j -> a < b.
Proof.
  induction l as [|x l IH]; intros start a b i j ma mb;
    cbn [errors_from].
  - destruct a; discriminate.
  - intros Ha Hb Hi Hj Hlt.
    set (E := element_errors start x) in *.
    assert (Hhead : forall p m q, p < List.length E ->
              nth_error (E ++ errors_from (S start) l) p = Some m ->
              mentions q m -> q = start).
    { intros p m q Hp Hn Hq. rewrite nth_error_app1 in Hn by exact Hp.
      apply nth_error_In in Hn.
      apply (@mentions_inj q start m Hq).
      now apply element_errors_mention with x. }
    assert (Htail : forall p m q, List.length E <= p ->
              nth_error (E ++ errors_from (S start) l) p = Some m ->
              mentions q m ->
              S start <= q
              /\ nth_error (errors_from (S start) l) (p - List.length E)
                 = Some m).
    { intros p m q Hp Hn Hq. rewrite nth_error_app2 in Hn by exact Hp.
      split; [|exact Hn]. apply nth_error_In in Hn.
      destruct (errors_from_mention _ _ _ Hn) as (q' & Hq' & Hm).
      rewrite (mentions_inj Hq Hm). lia. }
    destruct (Nat.lt_ge_cases a (List.length E)) as [Hal|Hal];
      destruct (Nat.lt_ge_cases b (List.length E)) as [Hbl|Hbl].
    + pose proof (Hhead _ _ _ Hal Ha Hi). pose proof (Hhead _ _ _ Hbl Hb Hj).
      lia.
    + lia.
    + pose proof (Hhead _ _ _ Hbl Hb Hj).
      destruct (Htail _ _ _ Hal Ha Hi) as [? _]. lia.
    + destruct (Htail _ _ _ Hal Ha Hi) as [_ Ha'].
      destruct (Htail _ _ _ Hbl Hb Hj) as [_ Hb'].
      pose proof (IH _ _ _ _ _ _ _ Ha' Hb' Hi Hj Hlt). lia.
Qed.

(** The messages of a list are the blocks of its elements, concatenated in
    the order of [enumerate]. *)
Lemma errors_from_concat (l : list value) :
  forall start : nat,
    errors_from start l
    = List.concat (map (fun ix => element_errors (fst ix) (snd ix))
                  (combine (seq start (List.length l)) l)).
Proof.
  induction l as [|x l IH]; intros start;
    cbn [errors_from List.length seq combine map List.concat fst snd].
  - reflexivity.
  - now rewrite IH.
Qed.

(** C10: with a list under [labeling_instructions], the returned errors
    are the blocks of the elements in index order; a block has at most two
    messages and exactly one when the element is not a mapping; a message
    with index [i] stands before every message with a larger index [j];
    the empty list yields no error. *)
Theorem C10_blocks_in_index_order (config : value) (l : list value) :
  labeling_list config = Some l ->
  exists errors : list pystr,
    validate_config config = Ret errors
    /\ errors = List.concat (map (fun ix => element_errors (fst ix) (snd ix))
                            (combine (seq 0 (List.length l)) l))
    /\ (forall i x, In (i, x) (combine (seq 0 (List.length l)) l) ->
          List.length (element_errors i x) <= 2
          /\ (isinstance_dict x = false ->
              List.length (element_errors i x) = 1))
    /\ (forall a b i j ma mb,
          nth_error errors a = Some ma -> nth_error errors b = Some mb ->
          mentions i ma -> mentions j mb -> i < j -> a < b)
    /\ (l = [] -> errors = []).
Proof.
  intros H. exists (errors_from 0 l). split; [|split; [|split; [|split]]].
  - now apply validate_labeling_list.
  - apply errors_from_concat.
  - intros i x _. apply element_errors_length.
  - apply errors_from_ordered.
  - now intros ->.
Qed.

Lemma C10_witness :
  exists errors : list pystr,
    validate_config
      (doc_with_labeling (VList [str "bug"; VDict []; VInt 5]))
    = Ret errors
    /\ errors
       = [msg_received_string 0; msg_missing_label 1;
          msg_missing_instructions 1; msg_invalid_type 2 (lit "int")]
    /\ (forall a b i j ma mb,
          nth_error errors a = Some ma -> nth_error errors b = Some mb ->
          mentions i ma -> mentions j mb -> i < j -> a < b).
Proof.
  destruct (@C10_blocks_in_index_order
              (doc_with_labeling (VList [str "bug"; VDict []; VInt 5]))
              [str "bug"; VDict []; VInt 5] eq_refl)
    as (errors & Hv & He & _ & Ho & _).
  exists errors. split; [exact Hv|]. split; [exact He|exact Ho].
Defined.

(** ** Documents whose root or [reviews] section is not a mapping *)

(** C2, as stated, fails: with [reviews: oops] the validator returns the
    empty list, and with the string [hello] as the root it returns the
    missing-section error; neither run raises. *)
Lemma C2_counterexample :
  (dict_lookup [(str "reviews", str "oops")] (lit "reviews")
   = Some (str "oops")
   /\ isinstance_dict (str "oops") = false
   /\ validate_config doc_reviews_oops = Ret [])
  /\ (isinstance_dict (str "hello") = false
      /\ validate_config (str "hello")
         = Ret [lit "Missing 'reviews' section"]).
Proof.
  repeat split.
Qed.

(** C2, amended: a root that is not a mapping makes the validator raise
    TypeError, except a string, list, tuple or set in which [reviews] does
    not occur, for which it returns the missing-section error; a [reviews]
    value that is not a mapping makes it raise TypeError, except a string,
    list, tuple or set in which [labeling_instructions] does not occur, for
    which it returns no error. *)
Theorem C2_non_mapping (config : value) :
  (isinstance_dict config = false ->
   validate_config config
   = match py_in (lit "reviews") config with
     | Ret false => Ret [lit "Missing 'reviews' section"]
     | _ => Raise TypeError
     end)
  /\ (rejects_str_membership config = true ->
      validate_config config = Raise TypeError)
  /\ (forall root r,
        config = VDict root ->
        dict_lookup root (lit "reviews") = Some r ->
        isinstance_dict r = false ->
        validate_config config
        = match py_in (lit "labeling_instructions") r with
          | Ret false => Ret []
          | _ => Raise TypeError
          end)
  /\ (forall root r,
        config = VDict root ->
        dict_lookup root (lit "reviews") = Some r ->
        rejects_str_membership r = true ->
        validate_config config = Raise TypeError).
Proof.
  assert (Hroot : isinstance_dict config = false ->
            validate_config config
            = match py_in (lit "reviews") config with
              | Ret false => Ret [lit "Missing 'reviews' section"]
              | _ => Raise TypeError
              end).
  { intros H. unfold validate_config, check_config, bind, eval.
    destruct config; try discriminate; cbn [py_in]; try reflexivity;
      split_membership; reflexivity. }
  assert (Hrev : forall root r,
            config = VDict root ->
            dict_lookup root (lit "reviews") = Some r ->
            isinstance_dict r = false ->
            validate_config config
            = match py_in (lit "labeling_instructions") r with
              | Ret false => Ret []
              | _ => Raise TypeError
              end).
  { intros root r -> Hr H.
    unfold validate_config, check_config, bind, eval.
    cbn [py_in py_getitem]. rewrite Hr. cbn [is_some negb].
    destruct r; try discriminate; cbn [py_in]; try reflexivity;
      split_membership; reflexivity. }
  repeat split.
  - exact Hroot.
  - intros H. rewrite Hroot; destruct config; try discriminate; reflexivity.
  - exact Hrev.
  - intros root r Hc Hr H.
    rewrite (Hrev root r Hc Hr); destruct r; try discriminate; reflexivity.
Qed.

Lemma C2_witness :
  validate_config (VList [str "reviews"]) = Raise TypeError
  /\ validate_config VNone = Raise TypeError
  /\ validate_config doc_reviews_oops = Ret []
  /\ validate_config (VDict [(str "reviews", VNone)]) = Raise TypeError.
Proof.
  split; [|split; [|split]].
  - exact (proj1 (C2_non_mapping (VList [str "reviews"])) eq_refl).
  - exact (proj1 (proj2 (C2_non_mapping VNone)) eq_refl).
  - exact (proj1 (proj2 (proj2 (C2_non_mapping doc_reviews_oops)))
             [(str "reviews", str "oops")] (str "oops")
             eq_refl eq_refl eq_refl).
  - exact (proj2 (proj2 (proj2
             (C2_non_mapping (VDict [(str "reviews", VNone)]))))
             [(str "reviews", VNone)] VNone eq_refl eq_refl eq_refl).
Defined.

(** ** Loading failures and the command line *)

(** C8, as stated, fails: with the file missing, [main] prints the
    validation-failed header and then the loader's message as one bullet
    among the errors, not a single fatal message of its own. *)
Lemma C8_counterexample :
  no_files (filepath_of_argv abspath_repo argv_without_path)
  = FileNotFoundError
  /\ stdout (main no_files abspath_repo argv_without_path)
     = [print_validating (lit "/repo/.coderabbit.yaml");
        print_failed;
        print_error (lit "File not found: /repo/.coderabbit.yaml")]
  /\ ~ (exists fatal : pystr,
          stdout (main no_files abspath_repo argv_without_path)
          = [print_validating (lit "/repo/.coderabbit.yaml"); fatal]).
Proof.
  split; [reflexivity|]. split; [reflexivity|].
  intros [fatal H]. discriminate H.
Qed.

(** C8, amended: when the file is missing or is not YAML,
    [validate_coderabbit_yaml] returns a list holding the one loader
    message and runs no schema check; [main] reports that list like any
    list of validation errors, under the validation-failed header, and
    exits with code 1. *)
Theorem C8_loader_failure_reported (safe_load_file : pystr -> load_result)
    (abspath : pystr -> pystr) (argv : list pystr) (msg : pystr) :
  let filepath := filepath_of_argv abspath argv in
  (safe_load_file filepath = FileNotFoundError
   /\ msg = lit "File not found: " ++ filepath)
  \/ (exists e, safe_load_file filepath = YAMLError e
                /\ msg = lit "YAML syntax error: " ++ e) ->
  validate_coderabbit_yaml safe_load_file filepath = Ret [msg]
  /\ main safe_load_file abspath argv
     = {| stdout := [print_validating filepath; print_failed;
                     print_error msg];
          status := Ret 1%Z |}.
Proof.
  intros filepath H.
  assert (Hv : validate_coderabbit_yaml safe_load_file filepath = Ret [msg]).
  { unfold validate_coderabbit_yaml.
    destruct H as [[-> ->]|(e & -> & ->)]; reflexivity. }
  split; [exact Hv|].
  unfold main. fold filepath. now rewrite Hv.
Qed.

Lemma C8_witness :
  validate_coderabbit_yaml bad_yaml
    (filepath_of_argv abspath_repo argv_without_path)
  = Ret [lit "YAML syntax error: mapping values are not allowed here"]
  /\ main bad_yaml abspath_repo argv_without_path
     = {| stdout :=
            [print_validating (lit "/repo/.coderabbit.yaml");
             print_failed;
             print_error
               (lit "YAML syntax error: mapping values are not allowed here")];
          status := Ret 1%Z |}.
Proof.
  apply (@C8_loader_failure_reported bad_yaml abspath_repo argv_without_path).
  right. exists (lit "mapping values are not allowed here").
  split; reflexivity.
Defined.

(** C9: without a positional argument the path is [abspath] of
    [.coderabbit.yaml]; when the validator returns [errors], the exit code
    is 0 exactly when [errors] is empty, with the success line printed, and
    1 otherwise, with the header and one line per error in order. *)
Theorem C9_exit_code (safe_load_file : pystr -> load_result)
    (abspath : pystr -> pystr) (argv : list pystr) (errors : list pystr) :
  let filepath := filepath_of_argv abspath argv in
  validate_coderabbit_yaml safe_load_file filepath = Ret errors ->
  (List.length argv < 2 -> filepath = abspath (lit ".coderabbit.yaml"))
  /\ (status (main safe_load_file abspath argv) = Ret 0%Z <-> errors = [])
  /\ (status (main safe_load_file abspath argv) = Ret 1%Z <-> errors <> [])
  /\ (errors = [] ->
      stdout (main safe_load_file abspath argv)
      = [print_validating filepath; print_valid])
  /\ (errors <> [] ->
      stdout (main safe_load_file abspath argv)
      = print_validating filepath :: print_failed
        :: map print_error errors).
Proof.
  intros filepath Hv. split.
  - intros Hlen. unfold filepath, filepath_of_argv.
    apply Nat.ltb_lt in Hlen. now rewrite Hlen.
  - unfold main. fold filepath. rewrite Hv.
    destruct errors as [|e errors]; cbn [status stdout app];
      repeat split; try congruence; try discriminate.
Qed.

Lemma C9_witness :
  filepath_of_argv abspath_repo argv_without_path
  = lit "/repo/.coderabbit.yaml"
  /\ status (main (files_with (doc_with_labeling (VList [str "bug"])))
              abspath_repo argv_without_path)
     = Ret 1%Z
  /\ stdout (main (files_with (doc_with_labeling (VList [str "bug"])))
              abspath_repo argv_without_path)
     = [print_validating (lit "/repo/.coderabbit.yaml");
        print_failed;
        print_error (msg_received_string 0)].
Proof.
  pose proof (@C9_exit_code
                (files_with (doc_with_labeling (VList [str "bug"])))
                abspath_repo argv_without_path
                [msg_received_string 0] eq_refl)
    as (Hp & _ & Hs & _ & Ho).
  assert (Hne : [msg_received_string 0] <> []) by discriminate.
  split; [exact (Hp (Nat.lt_succ_diag_r 1))|].
  split; [exact (proj2 Hs Hne)|exact (Ho Hne)].
Defined.

(** ** The end-to-end scenarios *)

Example scenario_empty_reviews :
  main (files_with (VDict [(str "reviews", VDict [])]))
    abspath_repo argv_without_path
  = {| stdout :=
         [print_validating (lit "/repo/.coderabbit.yaml"); print_valid];
       status := Ret 0%Z |}.
Proof. reflexivity. Qed.

Example scenario_string_entry :
  validate_config (doc_with_labeling (VList [str "bug"]))
  = Ret [lit "Expected object, received string at "
         ++ dquote ++ lit "reviews.labeling_instructions[0]" ++ dquote].
Proof. reflexivity. Qed.

Example scenario_good_entry :
  validate_config (doc_with_labeling (VList [good_entry])) = Ret [].
Proof. reflexivity. Qed.

Example scenario_number_as_instructions :
  validate_config
    (doc_with_labeling (VList [VDict [(str "instructions", VInt 5)]]))
  = Ret [msg_missing_label 0; msg_instructions_not_str 0].
Proof. reflexivity. Qed.

Example scenario_index_in_decimal :
  msg_invalid_type 12 (type_name (VBool true))
  = lit "Invalid type at " ++ dquote
    ++ lit "reviews.labeling_instructions[12]" ++ dquote
    ++ lit ": expected object, got bool".
Proof. reflexivity. Qed.

(** ** Further properties of the checks *)

Lemma validate_non_dict_root (config : value) :
  isinstance_dict config = false ->
  validate_config config = Raise TypeError
  \/ validate_config config = Ret [msg_missing_reviews].
Proof.
  intros H. unfold validate_config, check_config, bind, eval.
  destruct config; try discriminate; cbn [py_in]; auto;
    split_membership; auto.
Qed.

Lemma validate_non_dict_reviews (root : list (value * value)) (r : value) :
  dict_lookup root (lit "reviews") = Some r ->
  isinstance_dict r = false ->
  validate_config (VDict root) = Raise TypeError
  \/ validate_config (VDict root) = Ret [].
Proof.
  intros Hr H. unfold validate_config, check_config, bind, eval.
  cbn [py_in py_getitem]. rewrite Hr. cbn [is_some negb].
  destruct r; try discriminate; cbn [py_in]; auto; split_membership; auto.
Qed.

(** Every run of the validator ends in one of five ways. *)
Lemma validate_config_cases (config : value) :
  validate_config config = Raise TypeError
  \/ validate_config config = Ret [msg_missing_reviews]
  \/ validate_config config = Ret []
  \/ validate_config config = Ret [msg_must_be_list]
  \/ exists l, labeling_list config = Some l
               /\ validate_config config = Ret (errors_from 0 l).
Proof.
  destruct (isinstance_dict config) eqn:Hd.
  - destruct config as [| | | | | | | | | | |root]; try discriminate.
    destruct (dict_lookup root (lit "reviews")) as [r|] eqn:Hr.
    + destruct (isinstance_dict r) eqn:Hrd.
      * destruct r as [| | | | | | | | | | |reviews]; try discriminate.
        rewrite (validate_reviews_dict _ Hr).
        destruct (dict_lookup reviews (lit "labeling_instructions"))
          as [v|] eqn:Hv; [|auto].
        destruct v; auto.
        right; right; right; right. exists l. split; [|reflexivity].
        cbn [labeling_list]. now rewrite Hr, Hv.
      * destruct (validate_non_dict_reviews _ Hr Hrd); auto.
    + right; left. now apply validate_no_reviews.
  - destruct (validate_non_dict_root _ Hd); auto.
Qed.

(** X1: the only exception the validator lets escape is TypeError, and
    only when the root or the [reviews] value is not a mapping; the
    subscripts never fail with KeyError. *)
Theorem X1_raises_only_type_error (config : value) (e : exn) :
  validate_config config = Raise e ->
  e = TypeError
  /\ (isinstance_dict config = false
      \/ exists root r,
           config = VDict root
           /\ dict_lookup root (lit "reviews") = Some r
           /\ isinstance_dict r = false).
Proof.
  intros H. split.
  - destruct (validate_config_cases config)
      as [Hc|[Hc|[Hc|[Hc|(l & _ & Hc)]]]];
      rewrite Hc in H; congruence.
  - destruct config as [| | | | | | | | | | |root]; auto.
    right. destruct (dict_lookup root (lit "reviews")) as [r|] eqn:Hr.
    + exists root, r. repeat split; [exact Hr|].
      destruct r as [| | | | | | | | | | |reviews]; try reflexivity.
      rewrite (validate_reviews_dict _ Hr) in H. discriminate.
    + rewrite (validate_no_reviews _ Hr) in H. discriminate.
Qed.

Lemma X1_witness :
  TypeError = TypeError
  /\ (isinstance_dict (VDict [(str "reviews", VInt 3)]) = false
      \/ exists root r,
           VDict [(str "reviews", VInt 3)] = VDict root
           /\ dict_lookup root (lit "reviews") = Some r
           /\ isinstance_dict r = false).
Proof.
  apply (@X1_raises_only_type_error (VDict [(str "reviews", VInt 3)])).
  reflexivity.
Defined.

Lemma element_errors_nil (i : nat) (x : value) :
  element_errors i x = [] <-> well_formed_entry x = true.
Proof.
  destruct x; cbn [element_errors well_formed_entry];
    try (split; discriminate).
  destruct (dict_lookup d (lit "label")) as [[]|];
    destruct (dict_lookup d (lit "instructions")) as [[]|];
    cbn [label_errors instructions_errors app];
    try (split; discriminate).
  rewrite Nat.leb_antisym.
  destruct (3000 <? List.length s0); cbn [negb]; split;
    try discriminate; reflexivity.
Qed.

Lemma errors_from_nil (l : list value) :
  forall i : nat,
    errors_from i l = [] <-> forallb well_formed_entry l = true.
Proof.
  induction l as [|x l IH]; intros i; cbn [errors_from forallb].
  - split; reflexivity.
  - rewrite andb_true_iff, <- (IH (S i)), <- (element_errors_nil i x).
    split.
    + intros H. now apply app_eq_nil in H.
    + now intros [-> ->].
Qed.

Lemma reviews_dict_valid_iff (root reviews : list (value * value)) :
  dict_lookup root (lit "reviews") = Some (VDict reviews) ->
  validate_config (VDict root) = Ret []
  <-> (dict_lookup reviews (lit "labeling_instructions") = None
       \/ exists l,
            dict_lookup reviews (lit "labeling_instructions")
            = Some (VList l)
            /\ forallb well_formed_entry l = true).
Proof.
  intros Hr. rewrite (validate_reviews_dict _ Hr).
  destruct (dict_lookup reviews (lit "labeling_instructions")) as [v|].
  - split.
    + intros H. right.
      destruct v; try discriminate H.
      exists l. split; [reflexivity|].
      apply (errors_from_nil l 0). congruence.
    + intros [H|(l & H & Hl)]; [discriminate H|].
      injection H as ->. f_equal. now apply (errors_from_nil l 0).
  - split; auto.
Qed.

(** X2: with a mapping root and a mapping [reviews], the validator
    returns no error exactly when [labeling_instructions] is absent or is
    a list whose elements are all mappings with a string [label] and a
    string [instructions] of at most 3000 characters. *)
Theorem X2_valid_iff_well_formed (root reviews : list (value * value)) :
  dict_lookup root (lit "reviews") = Some (VDict reviews) ->
  validate_config (VDict root) = Ret []
  <-> (dict_lookup reviews (lit "labeling_instructions") = None
       \/ exists l,
            dict_lookup reviews (lit "labeling_instructions")
            = Some (VList l)
            /\ forallb well_formed_entry l = true).
Proof.
  exact (@reviews_dict_valid_iff root reviews).
Qed.

Lemma X2_witness :
  validate_config (doc_with_labeling (VList [good_entry; good_entry]))
  = Ret []
  <-> (dict_lookup [(str "profile", str "chill");
                    (str "labeling_instructions",
                     VList [good_entry; good_entry])]
         (lit "labeling_instructions") = None
       \/ exists l,
            dict_lookup [(str "profile", str "chill");
                         (str "labeling_instructions",
                          VList [good_entry; good_entry])]
              (lit "labeling_instructions") = Some (VList l)
            /\ forallb well_formed_entry l = true).
Proof.
  apply (@X2_valid_iff_well_formed
           [(str "reviews",
             VDict [(str "profile", str "chill");
                    (str "labeling_instructions",
                     VList [good_entry; good_entry])])]).
  reflexivity.
Defined.

(** X3: keys other than [reviews] in the root and other than
    [labeling_instructions] in [reviews] are never looked at: two
    documents whose [reviews] mappings hold the same value under
    [labeling_instructions] get the same result, and without that key the
    result is the empty list. *)
Theorem X3_other_keys_ignored (root root' reviews reviews'
    : list (value * value)) :
  dict_lookup root (lit "reviews") = Some (VDict reviews) ->
  dict_lookup root' (lit "reviews") = Some (VDict reviews') ->
  dict_lookup reviews (lit "labeling_instructions")
  = dict_lookup reviews' (lit "labeling_instructions") ->
  validate_config (VDict root) = validate_config (VDict root')
  /\ (py_in (lit "labeling_instructions") (VDict reviews) = Ret false ->
      validate_config (VDict root) = Ret []).
Proof.
  intros Hr Hr' Heq.
  rewrite (validate_reviews_dict _ Hr), (validate_reviews_dict _ Hr'), Heq.
  split; [reflexivity|]. cbn [py_in]. rewrite Heq.
  now destruct (dict_lookup reviews' (lit "labeling_instructions")).
Qed.

Lemma X3_witness :
  validate_config (doc_with_labeling (VList mixed_entries))
  = validate_config (doc_with_other_keys (VList mixed_entries)).
Proof.
  refine (proj1 (@X3_other_keys_ignored _ _
                   [(str "profile", str "chill");
                    (str "labeling_instructions", VList mixed_entries)]
                   [(str "labeling_instructions", VList mixed_entries);
                    (str "tools", VDict [])] _ _ _)); reflexivity.
Defined.

(** X4: an element that is neither a string nor a mapping contributes
    exactly one message, the invalid-type message with its index and the
    name of its Python type. *)
Theorem X4_invalid_type_element (config : value) (pre post : list value)
    (x : value) :
  labeling_list config = Some (pre ++ x :: post) ->
  isinstance_str x = false ->
  isinstance_dict x = false ->
  validate_config config
  = Ret (errors_from 0 pre
         ++ [lit "Invalid type at " ++ path (List.length pre)
             ++ lit ": expected object, got " ++ type_name x]
         ++ errors_from (S (List.length pre)) post).
Proof.
  intros H Hs Hd. rewrite (validate_element _ _ _ _ H).
  destruct x; try discriminate; reflexivity.
Qed.

Lemma X4_witness :
  validate_config (doc_with_labeling (VList [good_entry; VNone]))
  = Ret (errors_from 0 [good_entry]
         ++ [lit "Invalid type at " ++ path 1
             ++ lit ": expected object, got " ++ lit "NoneType"]
         ++ errors_from 2 []).
Proof.
  apply (@X4_invalid_type_element
           (doc_with_labeling (VList [good_entry; VNone]))
           [good_entry] [] VNone); reflexivity.
Defined.

(** X5: for a mapping element, the [label] field contributes the
    missing-field message when the key is absent, the must-be-a-string
    message when its value is not a string, and nothing for a string of
    any length: the 3000-character limit applies to [instructions] only. *)
Theorem X5_label_field (config : value) (pre post : list value)
    (d : list (value * value)) :
  labeling_list config = Some (pre ++ VDict d :: post) ->
  let i := List.length pre in
  let result (field : list pystr) :=
    Ret (errors_from 0 pre
         ++ (field
             ++ instructions_errors i (dict_lookup d (lit "instructions")))
         ++ errors_from (S i) post) in
  (py_in (lit "label") (VDict d) = Ret false ->
   validate_config config
   = result [lit "Missing 'label' field at " ++ path i])
  /\ (forall v, dict_lookup d (lit "label") = Some v ->
                isinstance_str v = false ->
                validate_config config
                = result [lit "'label' must be a string at " ++ path i])
  /\ (forall s, dict_lookup d (lit "label") = Some (VStr s) ->
                validate_config config = result []).
Proof.
  intros H i result. subst result i.
  rewrite (validate_element _ _ _ _ H). cbn [element_errors py_in].
  repeat split.
  - destruct (dict_lookup d (lit "label")); [discriminate|reflexivity].
  - intros v -> Hv. destruct v; try reflexivity. discriminate.
  - now intros s ->.
Qed.

Lemma X5_witness :
  validate_config
    (doc_with_labeling (VList [VDict (entry_with_label 5000)]))
  = Ret []
  /\ validate_config
       (doc_with_labeling (VList [VDict [(str "label", VInt 7)]]))
     = Ret [lit "'label' must be a string at " ++ path 0;
            lit "Missing 'instructions' field at " ++ path 0].
Proof.
  split.
  - refine (proj2 (proj2 (@X5_label_field _ [] [] (entry_with_label 5000) _))
              (long_text 5000) _); reflexivity.
  - refine (proj1 (proj2 (@X5_label_field _ [] []
                            [(str "label", VInt 7)] _))
              (VInt 7) _ _); reflexivity.
Defined.

(** X6: the keys of an entry other than [label] and [instructions], and
    the order of its keys, do not matter: replacing an entry by one with
    the same values under these two keys leaves the result unchanged. *)
Theorem X6_entry_other_keys_ignored (config config' : value)
    (pre post : list value) (d d' : list (value * value)) :
  labeling_list config = Some (pre ++ VDict d :: post) ->
  labeling_list config' = Some (pre ++ VDict d' :: post) ->
  dict_lookup d (lit "label") = dict_lookup d' (lit "label") ->
  dict_lookup d (lit "instructions") = dict_lookup d' (lit "instructions") ->
  validate_config config = validate_config config'.
Proof.
  intros H H' Hl Hi.
  rewrite (validate_element _ _ _ _ H), (validate_element _ _ _ _ H').
  cbn [element_errors]. now rewrite Hl, Hi.
Qed.

Lemma X6_witness :
  validate_config
    (doc_with_labeling
       (VList [VDict [(str "label", VStr (long_text 2));
                      (str "instructions", str "short")]]))
  = validate_config
      (doc_with_labeling (VList [VDict (entry_with_label 2)])).
Proof.
  apply (@X6_entry_other_keys_ignored _ _ [] []
           [(str "label", VStr (long_text 2));
            (str "instructions", str "short")]
           (entry_with_label 2)); reflexivity.
Defined.

Lemma errors_from_length (l : list value) :
  forall i : nat,
    List.length (filter (fun x => negb (isinstance_dict x)) l)
    <= List.length (errors_from i l) <= 2 * List.length l.
Proof.
  induction l as [|x l IH]; intros i; cbn [errors_from filter List.length].
  - lia.
  - rewrite List.length_app.
    destruct (element_errors_length i x) as [Hle Hone].
    specialize (IH (S i)).
    destruct (isinstance_dict x); cbn [negb List.length].
    + lia.
    + rewrite (Hone eq_refl). lia.
Qed.

(** X7: for a list of [n] elements the validator returns at most [2 * n]
    errors, and at least one error for each element that is not a
    mapping. *)
Theorem X7_error_count (config : value) (l : list value) :
  labeling_list config = Some l ->
  exists errors : list pystr,
    validate_config config = Ret errors
    /\ List.length (filter (fun x => negb (isinstance_dict x)) l)
       <= List.length errors <= 2 * List.length l.
Proof.
  intros H. exists (errors_from 0 l). split.
  - now apply validate_labeling_list.
  - apply errors_from_length.
Qed.

Lemma X7_witness :
  exists errors : list pystr,
    validate_config (doc_with_labeling (VList mixed_entries)) = Ret errors
    /\ 2 <= List.length errors <= 6.
Proof.
  apply (@X7_error_count (doc_with_labeling (VList mixed_entries))
           mixed_entries).
  reflexivity.
Defined.

Lemma errors_from_origin (l : list value) :
  forall (i : nat) (msg : pystr),
    In msg (errors_from i l) ->
    exists q x, nth_error l q = Some x /\ In msg (element_errors (i + q) x).
Proof.
  induction l as [|x l IH]; intros i msg; cbn [errors_from].
  - contradiction.
  - intros H. apply in_app_or in H. destruct H as [H|H].
    + exists 0, x. now rewrite Nat.add_0_r.
    + destruct (IH _ _ H) as (q & y & Hq & Hy).
      exists (S q), y. split; [exact Hq|].
      now replace (i + S q) with (S i + q) by lia.
Qed.

(** X8: every returned message comes from an element that exists: it is
    in the block of the element at some index [q] of the list and carries
    the path of that same index. *)
Theorem X8_messages_point_into_list (config : value) (l : list value)
    (errors : list pystr) (msg : pystr) :
  labeling_list config = Some l ->
  validate_config config = Ret errors ->
  In msg errors ->
  exists q x,
    nth_error l q = Some x
    /\ q < List.length l
    /\ In msg (element_errors q x)
    /\ mentions q msg.
Proof.
  intros H Hv Hin. rewrite (validate_labeling_list _ H) in Hv.
  injection Hv as <-.
  destruct (errors_from_origin _ _ _ Hin) as (q & x & Hq & Hx).
  exists q, x. cbn [Nat.add] in Hx. repeat split; try assumption.
  - apply nth_error_Some. congruence.
  - now apply element_errors_mention with x.
Qed.

Lemma X8_witness :
  exists q x,
    nth_error mixed_entries q = Some x
    /\ q < List.length mixed_entries
    /\ In (msg_missing_instructions 1) (element_errors q x)
    /\ mentions q (msg_missing_instructions 1).
Proof.
  apply (@X8_messages_point_into_list
           (doc_with_labeling (VList mixed_entries)) mixed_entries
           [msg_received_string 0; msg_missing_label 1;
            msg_missing_instructions 1; msg_invalid_type 2 (lit "int")]);
    [reflexivity|reflexivity|].
  right; right; left. reflexivity.
Defined.

(** X9: appending elements to the list only appends messages: the errors
    of a list are an initial segment of the errors of every extension of
    it. *)
Theorem X9_errors_of_prefix (config config' : value) (l more : list value) :
  labeling_list config = Some l ->
  labeling_list config' = Some (l ++ more) ->
  exists errors : list pystr,
    validate_config config = Ret errors
    /\ validate_config config'
       = Ret (errors ++ errors_from (List.length l) more).
Proof.
  intros H H'. exists (errors_from 0 l).
  rewrite (validate_labeling_list _ H), (validate_labeling_list _ H').
  now rewrite errors_from_app.
Qed.

Lemma X9_witness :
  exists errors : list pystr,
    validate_config (doc_with_labeling (VList [str "bug"])) = Ret errors
    /\ validate_config (doc_with_labeling (VList mixed_entries))
       = Ret (errors ++ errors_from 1 [VDict []; VInt 5]).
Proof.
  apply (@X9_errors_of_prefix
           (doc_with_labeling (VList [str "bug"]))
           (doc_with_labeling (VList mixed_entries))
           [str "bug"] [VDict []; VInt 5]); reflexivity.
Defined.

(** X10: two per-element messages are equal only when they carry the
    same index, so the paths of different elements are different. *)
Theorem X10_index_determined (k k' : kind) (i j : nat) :
  element_msg k i = element_msg k' j -> i = j.
Proof.
  intros H. apply (@mentions_inj i j (element_msg k i)).
  - now exists k.
  - exists k'. exact H.
Qed.

Lemma X10_witness : 3 = 3.
Proof.
  apply (@X10_index_determined MissingLabel MissingLabel 3 3). reflexivity.
Defined.

Lemma element_msg_initial (k : kind) (i : nat) :
  exists c rest, element_msg k i = c :: rest /\ schema_initial c = true.
Proof.
  unfold element_msg, msg_received_string, msg_missing_label,
    msg_label_not_str, msg_missing_instructions, msg_instructions_not_str,
    msg_too_long, msg_invalid_type.
  generalize (path i). intros p.
  destruct k; unfold lit; cbn [list_ascii_of_string map app];
    eexists; eexists; (split; [reflexivity|reflexivity]).
Qed.

Lemma schema_message_initial (config : value) (errors : list pystr)
    (msg : pystr) :
  validate_config config = Ret errors ->
  In msg errors ->
  exists c rest, msg = c :: rest /\ schema_initial c = true.
Proof.
  intros Hv Hin.
  destruct (validate_config_cases config)
    as [Hc|[Hc|[Hc|[Hc|(l & _ & Hc)]]]];
    rewrite Hc in Hv; try discriminate; injection Hv as <-.
  - destruct Hin as [<-|[]]. eexists; eexists.
    split; [reflexivity|reflexivity].
  - contradiction.
  - destruct Hin as [<-|[]]. eexists; eexists.
    split; [reflexivity|reflexivity].
  - destruct (errors_from_mention _ _ _ Hin) as (q & _ & k & ->).
    apply element_msg_initial.
Qed.

(** X11: no message of the schema checks is a loader message: whatever
    the document, the returned list holds neither a file-not-found message
    nor a YAML-syntax-error message. *)
Theorem X11_schema_messages_not_loader (config : value)
    (errors : list pystr) (filepath e : pystr) :
  validate_config config = Ret errors ->
  ~ In (lit "File not found: " ++ filepath) errors
  /\ ~ In (lit "YAML syntax error: " ++ e) errors.
Proof.
  intros Hv. split; intros Hin;
    destruct (@schema_message_initial _ _ _ Hv Hin) as (c & rest & Hm & Hc);
    unfold lit in Hm; cbn [list_ascii_of_string map app] in Hm;
    injection Hm as <- _; discriminate Hc.
Qed.

Lemma X11_witness :
  ~ In (lit "File not found: " ++ lit "/repo/.coderabbit.yaml")
       [msg_missing_reviews]
  /\ ~ In (lit "YAML syntax error: " ++ lit "bad indentation")
          [msg_missing_reviews].
Proof.
  apply (@X11_schema_messages_not_loader (VDict doc_without_reviews)).
  reflexivity.
Defined.

(** ** Further properties of [main] *)

Lemma main_of_result (safe_load_file : pystr -> load_result)
    (abspath : pystr -> pystr) (argv : list pystr) :
  let filepath := filepath_of_argv abspath argv in
  main safe_load_file abspath argv
  = match validate_coderabbit_yaml safe_load_file filepath with
    | Raise e => {| stdout := [print_validating filepath];
                    status := Raise e |}
    | Ret [] => {| stdout := [print_validating filepath; print_valid];
                   status := Ret 0%Z |}
    | Ret errors =>
        {| stdout := print_validating filepath :: print_failed
                     :: map print_error errors;
           status := Ret 1%Z |}
    end.
Proof.
  intros filepath. unfold main. fold filepath.
  destruct (validate_coderabbit_yaml safe_load_file filepath) as [[|m r]|e];
    reflexivity.
Qed.



(** X13: a file whose document is null (an empty file), a boolean, a
    number, bytes or a date makes the run end with an escaped TypeError
    after the banner: no result line is printed and no exit code is
    chosen by the script. *)
Theorem X13_scalar_document_crashes (safe_load_file : pystr -> load_result)
    (abspath : pystr -> pystr) (argv : list pystr) (config : value) :
  let filepath := filepath_of_argv abspath argv in
  safe_load_file filepath = Loaded config ->
  rejects_str_membership config = true ->
  main safe_load_file abspath argv
  = {| stdout := [print_validating filepath]; status := Raise TypeError |}.
Proof.
  intros filepath Hload Hc. rewrite main_of_result. fold filepath.
  unfold validate_coderabbit_yaml. rewrite Hload.
  destruct config; try discriminate; reflexivity.
Qed.

Lemma X13_witness :
  main empty_files abspath_repo argv_without_path
  = {| stdout := [print_validating (lit "/repo/.coderabbit.yaml")];
       status := Raise TypeError |}.
Proof.
  apply (@X13_scalar_document_crashes empty_files abspath_repo
           argv_without_path VNone); reflexivity.
Defined.

(** X14: for a file holding a mapping with a mapping [reviews], the run
    exits with code 0 exactly when [labeling_instructions] is absent or is
    a list of well-formed entries, and with code 1 otherwise. *)
Theorem X14_exit_zero_iff_well_formed
    (safe_load_file : pystr -> load_result) (abspath : pystr -> pystr)
    (argv : list pystr) (root reviews : list (value * value)) :
  let filepath := filepath_of_argv abspath argv in
  let run := main safe_load_file abspath argv in
  safe_load_file filepath = Loaded (VDict root) ->
  dict_lookup root (lit "reviews") = Some (VDict reviews) ->
  (status run = Ret 0%Z
   <-> (dict_lookup reviews (lit "labeling_instructions") = None
        \/ exists l,
             dict_lookup reviews (lit "labeling_instructions")
             = Some (VList l)
             /\ forallb well_formed_entry l = true))
  /\ (status run = Ret 0%Z \/ status run = Ret 1%Z).
Proof.
  intros filepath run Hload Hr. subst run.
  rewrite <- (reviews_dict_valid_iff _ Hr).
  rewrite main_of_result. fold filepath.
  unfold validate_coderabbit_yaml. rewrite Hload.
  rewrite (validate_reviews_dict _ Hr).
  destruct (dict_lookup reviews (lit "labeling_instructions")) as [v|];
    [|cbn [status]; split; [split; reflexivity|auto]].
  destruct v; cbn [status];
    try (split; [split; discriminate|auto]).
  destruct (errors_from 0 l); cbn [status].
  - split; [split; reflexivity|auto].
  - split; [split; discriminate|auto].
Qed.

Lemma X14_witness :
  status (main (files_with (doc_with_labeling (VList [good_entry])))
            abspath_repo argv_without_path) = Ret 0%Z
  /\ status (main (files_with (doc_with_labeling (VList mixed_entries)))
               abspath_repo argv_without_path) = Ret 1%Z.
Proof.
  split.
  - apply (proj1 (@X14_exit_zero_iff_well_formed
                    (files_with (doc_with_labeling (VList [good_entry])))
                    abspath_repo argv_without_path _ _ eq_refl eq_refl)).
    right. exists [good_entry]. split; reflexivity.
  - destruct (@X14_exit_zero_iff_well_formed
                (files_with (doc_with_labeling (VList mixed_entries)))
                abspath_repo argv_without_path _ _ eq_refl eq_refl)
      as [_ [H|H]]; [discriminate H|exact H].
Defined.
